(** * Load manager and section stopwatch of the query engine

    A shallow embedding of [src/src/data/graphql/effort.rs] (the query load
    manager: [LoadManager::decide], [LoadManager::update_kill_rate],
    [KillState::log_event], [QueryEffort]) and of
    [src/src/components/metrics/stopwatch.rs] ([StopwatchMetrics],
    [StopwatchInner], [Section]).

    Rust's [f64] is Rocq's primitive binary64 [float]: the kernel's
    operations are the IEEE-754 ones with round-to-nearest-even, and
    [FloatAxioms] relates them to [SpecFloat].  An [Instant] is a count of
    nanoseconds ([N]), a [Duration] as well. *)

From Stdlib Require Import ZArith Floats.
From stdpp Require Import base gmap strings list.

Local Set Warnings "-inexact-float".

(* ================================================================= *)
(** ** f64 helpers *)

Module F64.

Open Scope float_scope.

(** [f64::min]: the other argument when one is NaN, else the smaller
    (libm's [fmin]: [if x.is_nan() || y < x { y } else { x }]). *)
Definition f64_min (x y : float) : float :=
  if is_nan x || (y <? x) then y else x.

(** [f64::max] (libm's [fmax]: [if x.is_nan() || x < y { y } else { x }]). *)
Definition f64_max (x y : float) : float :=
  if is_nan x || (x <? y) then y else x.

Close Scope float_scope.

(** [n as f64] for an unsigned integer: round to nearest, ties to even. *)
Definition N_to_f64 (n : N) : float :=
  SF2Prim (binary_normalize prec emax (Z.of_N n) 0%Z false).

End F64.

(* ================================================================= *)
(** ** effort.rs: the query load manager *)

Module Effort.
Import F64.

(** [Instant] and [Duration], in nanoseconds. *)
Abbreviation Instant := N (only parsing).
Abbreviation Duration := N (only parsing).

Definition ZERO_DURATION : Duration := 0%N.
Definition from_millis (ms : N) : Duration := (ms * 1000000)%N.
Definition from_secs (s : N) : Duration := (s * 1000000000)%N.
Definition as_millis (d : Duration) : N := (d / 1000000)%N.
Definition saturating_duration_since (now earlier : Instant) : Duration :=
  (now - earlier)%N.

(** The environment-derived statics ([lazy_static!]).  [GRAPH_LOAD_THRESHOLD]
    is the parsed millisecond value, [JAIL_QUERIES] is whether
    [GRAPH_LOAD_JAIL_THRESHOLD] is set, [SIMULATE] whether
    [GRAPH_LOAD_SIMULATE] is set. *)
Record Config := {
  GRAPH_LOAD_THRESHOLD : N;
  JAIL_QUERIES : bool;
  JAIL_THRESHOLD : float;
  SIMULATE : bool
}.

Definition LOAD_THRESHOLD (cfg : Config) : Duration :=
  from_millis (GRAPH_LOAD_THRESHOLD cfg).

Definition LOAD_MANAGEMENT_DISABLED (cfg : Config) : bool :=
  N.eqb (LOAD_THRESHOLD cfg) ZERO_DURATION.

(** The interface of [crate::util::stats::MovingStats] that this module
    uses ([MovingStats] lives outside this file). *)
Class MovingStatsOps (MovingStats : Type) := {
  ms_new : Duration -> Duration -> MovingStats;
  ms_add_at : Instant -> Duration -> MovingStats -> MovingStats;
  (** [add(d)]: [add_at] at the current instant *)
  ms_add : Instant -> Duration -> MovingStats -> MovingStats;
  ms_average : MovingStats -> option Duration;
  ms_duration : MovingStats -> Duration
}.

Inductive Decision := Proceed | TooExpensive | Throttle.

Inductive KillStateLogEvent :=
  | Start
  | Ongoing (d : Duration)
  | Settling
  | Resolved (d : Duration)
  | Skip.

Record KillState := {
  kill_rate : float;
  last_update : Instant;
  overload_start : option Instant;
  last_overload_log : Instant
}.

(** [KillState::new]: [before] is [now - 60s] when that does not
    underflow, else [now]. *)
Definition KillState_new (now : Instant) : KillState :=
  let before :=
    if N.leb (from_secs 60) now then (now - from_secs 60)%N else now in
  {| kill_rate := 0%float; last_update := before;
     overload_start := None; last_overload_log := before |}.

(** [KillState::log_event]; [overload_start.elapsed()] is taken at [now]. *)
Definition log_event (ks : KillState) (now : Instant) (kill_rate : float)
    (overloaded : bool) : KillStateLogEvent * KillState :=
  match overload_start ks with
  | Some start =>
      if negb overloaded then
        if (kill_rate =? 0)%float then
          (Resolved (saturating_duration_since now start),
           {| kill_rate := ks.(Effort.kill_rate); last_update := last_update ks;
              overload_start := None; last_overload_log := last_overload_log ks |})
        else (Settling, ks)
      else if N.ltb (from_secs 30)
                 (saturating_duration_since now (last_overload_log ks)) then
        (Ongoing (saturating_duration_since now start),
         {| kill_rate := ks.(Effort.kill_rate); last_update := last_update ks;
            overload_start := overload_start ks; last_overload_log := now |})
      else (Skip, ks)
  | None =>
      if overloaded then
        (Start,
         {| kill_rate := ks.(Effort.kill_rate); last_update := last_update ks;
            overload_start := Some now; last_overload_log := now |})
      else (Skip, ks)
  end.

Section LoadManager.
Context {MovingStats : Type} `{!MovingStatsOps MovingStats}.

Record QueryEffortInner := {
  window_size : Duration;
  bin_size : Duration;
  effort : gmap N MovingStats;
  total : MovingStats
}.

(** [QueryEffortInner::add] *)
Definition QueryEffortInner_add (now : Instant) (shape_hash : N)
    (duration : Duration) (qe : QueryEffortInner) : QueryEffortInner :=
  let stats :=
    match effort qe !! shape_hash with
    | Some s => s
    | None => ms_new (window_size qe) (bin_size qe)
    end in
  {| window_size := window_size qe; bin_size := bin_size qe;
     effort := <[shape_hash := ms_add_at now duration stats]> (effort qe);
     total := ms_add_at now duration (total qe) |}.

(** [QueryEffort::current_effort] *)
Definition current_effort (qe : QueryEffortInner) (shape_hash : N)
    : option Duration * Duration :=
  (option_map ms_duration (effort qe !! shape_hash), ms_duration (total qe)).

(** The state of a [LoadManager] that [decide] reads or writes (the
    logger, gauges, counters and semaphore are left out). *)
Record LoadManager := {
  blocked_queries : gset N;
  jailed_queries : gset N;
  kill_state : KillState;
  query_effort : QueryEffortInner;
  semaphore_wait_stats : MovingStats
}.

Definition set_jailed (lm : LoadManager) (j : gset N) : LoadManager :=
  {| blocked_queries := blocked_queries lm; jailed_queries := j;
     kill_state := kill_state lm; query_effort := query_effort lm;
     semaphore_wait_stats := semaphore_wait_stats lm |}.

Definition set_kill_state (lm : LoadManager) (ks : KillState) : LoadManager :=
  {| blocked_queries := blocked_queries lm; jailed_queries := jailed_queries lm;
     kill_state := ks; query_effort := query_effort lm;
     semaphore_wait_stats := semaphore_wait_stats lm |}.

Definition set_query_effort (lm : LoadManager) (qe : QueryEffortInner)
    : LoadManager :=
  {| blocked_queries := blocked_queries lm; jailed_queries := jailed_queries lm;
     kill_state := kill_state lm; query_effort := qe;
     semaphore_wait_stats := semaphore_wait_stats lm |}.

Definition set_semaphore_wait_stats (lm : LoadManager) (s : MovingStats)
    : LoadManager :=
  {| blocked_queries := blocked_queries lm; jailed_queries := jailed_queries lm;
     kill_state := kill_state lm; query_effort := query_effort lm;
     semaphore_wait_stats := s |}.

(** [Ord::max] on [Option<Duration>]: [None] is the least element. *)
Definition option_max (a b : option Duration) : option Duration :=
  match a, b with
  | None, _ => b
  | _, None => a
  | Some x, Some y => Some (N.max x y)
  end.

(** [LoadManager::overloaded] *)
Definition overloaded (cfg : Config) (lm : LoadManager)
    (wait_stats : MovingStats) : bool * Duration :=
  let store_avg := ms_average wait_stats in
  let semaphore_avg := ms_average (semaphore_wait_stats lm) in
  let max_avg := option_max store_avg semaphore_avg in
  (match max_avg with
   | Some average => N.ltb (LOAD_THRESHOLD cfg) average
   | None => false
   end,
   match max_avg with Some a => a | None => ZERO_DURATION end).

(** [LoadManager::kill_state] *)
Definition read_kill_state (lm : LoadManager) : float * Instant :=
  (kill_rate (kill_state lm), last_update (kill_state lm)).

Definition KILL_RATE_STEP_UP : float := 0.1%float.
Definition KILL_RATE_STEP_DOWN : float := (2.0 * KILL_RATE_STEP_UP)%float.
Definition KILL_RATE_UPDATE_INTERVAL : Duration := from_millis 1000.

(** [LoadManager::update_kill_rate]; [now] is the [Instant::now()] it
    reads, [None] is the panic of its [assert!]. *)
Definition update_kill_rate (lm : LoadManager) (kill_rate : float)
    (last_update : Instant) (overloaded : bool) (wait_ms : Duration)
    (now : Instant) : option (float * LoadManager) :=
  if negb (overloaded || (0 <? kill_rate)%float) then None
  else if N.ltb KILL_RATE_UPDATE_INTERVAL
              (saturating_duration_since now last_update) then
    let kill_rate :=
      if overloaded
      then f64_min (kill_rate + KILL_RATE_STEP_UP * (1 - kill_rate))%float 1%float
      else f64_max (kill_rate - KILL_RATE_STEP_DOWN)%float 0%float in
    let state := kill_state lm in
    let state :=
      {| Effort.kill_rate := kill_rate; Effort.last_update := now;
         overload_start := overload_start state;
         last_overload_log := last_overload_log state |} in
    let '(_event, state) := log_event state now kill_rate overloaded in
    Some (kill_rate, set_kill_state lm state)
  else Some (kill_rate, lm).

(** [Rng::gen_bool] of [rand]: [Bernoulli::new(p).unwrap()] panics
    ([None]) unless [0 <= p <= 1]; [draw] is the random outcome. *)
Definition gen_bool (draw : float -> bool) (p : float) : option bool :=
  if ((0 <=? p)%float && (p <=? 1)%float)%bool then Some (draw p) else None.

(** The probability handed to [gen_bool] in [decide]. *)
Definition decline_probability (kill_rate query_effort total_effort : float)
    : float :=
  f64_max (f64_min (kill_rate * query_effort / total_effort)%float 1%float)
    0%float.

(** [LoadManager::decide].  [now] is the instant read by
    [update_kill_rate], [draw] the random number generator; [None] is a
    panic. *)
Definition decide (cfg : Config) (lm : LoadManager) (wait_stats : MovingStats)
    (shape_hash : N) (query : string) (now : Instant) (draw : float -> bool)
    : option (Decision * LoadManager) :=
  if bool_decide (shape_hash ∈ blocked_queries lm) then Some (TooExpensive, lm)
  else if LOAD_MANAGEMENT_DISABLED cfg then Some (Proceed, lm)
  else if bool_decide (shape_hash ∈ jailed_queries lm) then
    Some (if SIMULATE cfg then Proceed else TooExpensive, lm)
  else
    let '(overloaded, wait_ms) := overloaded cfg lm wait_stats in
    let '(kill_rate, last_update) := read_kill_state lm in
    if (negb overloaded && (kill_rate =? 0)%float)%bool then Some (Proceed, lm)
    else
      let '(query_effort, total_effort) :=
        current_effort (query_effort lm) shape_hash in
      if N.eqb total_effort ZERO_DURATION then Some (Proceed, lm)
      else
        let known_query :=
          match query_effort with Some _ => true | None => false end in
        let query_effort := N_to_f64 (as_millis
          (match query_effort with Some q => q | None => total_effort end)) in
        let total_effort := N_to_f64 (as_millis total_effort) in
        if (known_query && JAIL_QUERIES cfg
            && (JAIL_THRESHOLD cfg <? query_effort / total_effort)%float)%bool
        then
          Some (if SIMULATE cfg then Proceed else TooExpensive,
                set_jailed lm ({[shape_hash]} ∪ jailed_queries lm))
        else
          match update_kill_rate lm kill_rate last_update overloaded wait_ms now with
          | None => None
          | Some (kill_rate, lm) =>
              match gen_bool draw
                      (decline_probability kill_rate query_effort total_effort) with
              | None => None
              | Some decline =>
                  if decline then
                    Some (if SIMULATE cfg then Proceed else Throttle, lm)
                  else Some (Proceed, lm)
              end
          end.

(** [LoadManager::record_work] (the cache-status counters left out). *)
Definition record_work (cfg : Config) (lm : LoadManager) (shape_hash : N)
    (duration : Duration) (now : Instant) : LoadManager :=
  if negb (LOAD_MANAGEMENT_DISABLED cfg) then
    set_query_effort lm (QueryEffortInner_add now shape_hash duration (query_effort lm))
  else lm.

(** [LoadManager::add_wait_time], run by [query_permit]. *)
Definition add_wait_time (lm : LoadManager) (duration : Duration)
    (now : Instant) : LoadManager :=
  set_semaphore_wait_stats lm (ms_add now duration (semaphore_wait_stats lm)).

(** The public operations of a [LoadManager], one after the other. *)
Inductive Op :=
  | OpDecide (wait_stats : MovingStats) (shape_hash : N) (query : string)
      (now : Instant) (draw : float -> bool)
  | OpRecordWork (shape_hash : N) (duration : Duration) (now : Instant)
  | OpQueryPermit (wait : Duration) (now : Instant).

Definition step (cfg : Config) (lm : LoadManager) (op : Op) : option LoadManager :=
  match op with
  | OpDecide ws h q now draw => option_map snd (decide cfg lm ws h q now draw)
  | OpRecordWork h d now => Some (record_work cfg lm h d now)
  | OpQueryPermit d now => Some (add_wait_time lm d now)
  end.

Fixpoint run (cfg : Config) (lm : LoadManager) (ops : list Op)
    : option LoadManager :=
  match ops with
  | [] => Some lm
  | op :: ops =>
      match step cfg lm op with
      | Some lm' => run cfg lm' ops
      | None => None
      end
  end.

(** [QueryEffortInner::new] *)
Definition QueryEffortInner_new (window_size bin_size : Duration)
    : QueryEffortInner :=
  {| window_size := window_size; bin_size := bin_size;
     effort := ∅; total := ms_new window_size bin_size |}.

(** [LoadManager::new]: [blocked_hashes] are the shape hashes of the
    blocked documents; [window_size] and [bin_size] are [WINDOW_SIZE] and
    [BIN_SIZE] (used by [QueryEffort::default]); [stats_default] is
    [MovingStats::default()]; [now] is read by [KillState::new]. *)
Definition LoadManager_new (blocked_hashes : list N)
    (window_size bin_size : Duration) (stats_default : MovingStats)
    (now : Instant) : LoadManager :=
  {| blocked_queries := list_to_set blocked_hashes;
     jailed_queries := ∅;
     kill_state := KillState_new now;
     query_effort := QueryEffortInner_new window_size bin_size;
     semaphore_wait_stats := stats_default |}.

End LoadManager.

(** A [MovingStats] without windowing: every sample is kept.  It is used
    to run the definitions on concrete inputs. *)
Definition SampleStats := list (Instant * Duration).

Definition sum_durations (s : SampleStats) : Duration :=
  fold_right (fun '(_, d) acc => (d + acc)%N) 0%N s.

#[export] Instance SampleStats_ops : MovingStatsOps SampleStats := {
  ms_new _ _ := [];
  ms_add_at t d s := (t, d) :: s;
  ms_add t d s := (t, d) :: s;
  ms_average s :=
    match s with
    | [] => None
    | _ => Some (sum_durations s / N.of_nat (length s))%N
    end;
  ms_duration := sum_durations
}.

(** Concrete inputs: a 10 ms threshold with jailing at ratio 0.9, the same
    in simulate mode, and with load management disabled. *)
Definition cfg_example : Config :=
  {| GRAPH_LOAD_THRESHOLD := 10; JAIL_QUERIES := true;
     JAIL_THRESHOLD := 0.9%float; SIMULATE := false |}.

Definition cfg_simulate : Config :=
  {| GRAPH_LOAD_THRESHOLD := 10; JAIL_QUERIES := true;
     JAIL_THRESHOLD := 0.9%float; SIMULATE := true |}.

Definition cfg_disabled : Config :=
  {| GRAPH_LOAD_THRESHOLD := 0; JAIL_QUERIES := false;
     JAIL_THRESHOLD := 1e9%float; SIMULATE := false |}.

(** A manager 100 s after start: [0xDEADBEEF] blocked, shape [1] the only
    query run so far (5 ms). *)
Definition lm_example : LoadManager (MovingStats:=SampleStats) :=
  {| blocked_queries := {[0xDEADBEEF%N]};
     jailed_queries := ∅;
     kill_state := KillState_new 100000000000;
     query_effort :=
       {| window_size := 300000000000; bin_size := 1000000000;
          effort := {[1%N := [(0%N, 5000000%N)]]};
          total := [(0%N, 5000000%N)] |};
     semaphore_wait_stats := [] |}.

(** [lm_example] with a (never reached) negative [kill_rate]. *)
Definition lm_negative_rate : LoadManager (MovingStats:=SampleStats) :=
  set_kill_state lm_example
    {| kill_rate := (-0.5)%float; last_update := 0;
       overload_start := None; last_overload_log := 0 |}.

(** Pool wait statistics averaging 50 ms. *)
Definition ws_overloaded : SampleStats := [(0%N, 50000000%N)].

End Effort.

(* ================================================================= *)
(** ** stopwatch.rs: nested sections *)

Module Stopwatch.
Import F64.

Abbreviation Instant := N (only parsing).
Abbreviation Duration := N (only parsing).

(** [Duration::as_secs_f64]: [secs as f64 + nanos as f64 / 1e9]. *)
Definition as_secs_f64 (d : Duration) : float :=
  (N_to_f64 (d / 1000000000) + N_to_f64 (d mod 1000000000) / 1000000000)%float.

(** [StopwatchInner]; [counter] holds the value of the counter of each
    section label (a missing label is a counter at 0). *)
Record StopwatchInner := {
  counter : gmap string float;
  section_stack : list string;
  timer : Instant
}.

(** [StopwatchInner::record_and_reset] *)
Definition record_and_reset (now : Instant) (inner : StopwatchInner)
    : StopwatchInner :=
  let counter :=
    match last (section_stack inner) with
    | Some section =>
        let elapsed := as_secs_f64 (now - timer inner)%N in
        let v := match counter inner !! section with Some v => v | None => 0%float end in
        <[section := (v + elapsed)%float]> (counter inner)
    | None => counter inner
    end in
  {| counter := counter; section_stack := section_stack inner; timer := now |}.

(** [StopwatchInner::start_section] *)
Definition inner_start_section (now : Instant) (id : string)
    (inner : StopwatchInner) : StopwatchInner :=
  let inner := record_and_reset now inner in
  {| counter := counter inner; section_stack := section_stack inner ++ [id];
     timer := timer inner |}.

(** [StopwatchInner::end_section] (the error logs left out). *)
Definition inner_end_section (now : Instant) (id : string)
    (inner : StopwatchInner) : StopwatchInner :=
  match last (section_stack inner) with
  | Some current_section =>
      if String.eqb current_section id then
        let inner := record_and_reset now inner in
        {| counter := counter inner; section_stack := removelast (section_stack inner);
           timer := timer inner |}
      else inner
  | None => inner
  end.

(** [StopwatchMetrics]: the [disabled] flag and the shared [inner]. *)
Record StopwatchMetrics := {
  disabled : bool;
  inner : StopwatchInner
}.

(** [StopwatchMetrics::new] *)
Definition new (now : Instant) : StopwatchMetrics :=
  let inner := {| counter := ∅; section_stack := []; timer := now |} in
  let inner := inner_start_section now "unknown" inner in
  {| disabled := false; inner := inner |}.

(** [StopwatchMetrics::start_section]; the [Section] it returns is its id. *)
Definition start_section (sw : StopwatchMetrics) (id : string) (now : Instant)
    : StopwatchMetrics * string :=
  (if negb (disabled sw)
   then {| disabled := disabled sw; inner := inner_start_section now id (inner sw) |}
   else sw, id).

(** [StopwatchMetrics::disable] *)
Definition disable (sw : StopwatchMetrics) : StopwatchMetrics :=
  {| disabled := true; inner := inner sw |}.

(** [StopwatchMetrics::end_section], run by [Drop for Section]. *)
Definition end_section (sw : StopwatchMetrics) (id : string) (now : Instant)
    : StopwatchMetrics :=
  if negb (disabled sw)
  then {| disabled := disabled sw; inner := inner_end_section now id (inner sw) |}
  else sw.

(** A program using one stopwatch (and its clones): the live [Section]
    guards are a list; each guard carries its id and, as ghost data,
    whether its [start_section] pushed onto the stack. *)
Record World := {
  stopwatch : StopwatchMetrics;
  live : list (string * bool)
}.

Inductive SwOp :=
  | SwStart (id : string) (now : Instant)
  | SwDrop (k : nat) (now : Instant)   (** drop of the [k]-th live guard *)
  | SwDisable.

Definition sw_step (w : World) (op : SwOp) : World :=
  match op with
  | SwStart id now =>
      let '(sw, id) := start_section (stopwatch w) id now in
      {| stopwatch := sw; live := live w ++ [(id, negb (disabled (stopwatch w)))] |}
  | SwDrop k now =>
      match live w !! k with
      | Some (id, _) =>
          {| stopwatch := end_section (stopwatch w) id now;
             live := delete k (live w) |}
      | None => w
      end
  | SwDisable => {| stopwatch := disable (stopwatch w); live := live w |}
  end.

Definition sw_run (w : World) (ops : list SwOp) : World :=
  fold_left sw_step ops w.

Definition init_world (now : Instant) : World :=
  {| stopwatch := new now; live := [] |}.

(** Operations that keep to the stack discipline: no [disable], and a
    drop only of the most recently started live guard. *)
Fixpoint lifo_ok (w : World) (ops : list SwOp) : bool :=
  match ops with
  | [] => true
  | op :: ops =>
      match op with
      | SwStart _ _ => true
      | SwDrop k _ => Nat.eqb k (length (live w) - 1)
      | SwDisable => false
      end && lifo_ok (sw_step w op) ops
  end.

End Stopwatch.

(* ================================================================= *)
(** ** Facts about binary64 comparisons *)

Module F64Facts.
Import F64.

Lemma Pos_compare_cont_refl (m : positive) :
  Pos.compare_cont Eq m m = Eq.
Proof. apply Pos.compare_cont_refl. Qed.

Lemma Pos_compare_cont_swap (p q : positive) :
  Pos.compare_cont Eq p q = CompOpp (Pos.compare_cont Eq q p).
Proof. exact (eq_sym (Pos.compare_cont_antisym q p Eq)). Qed.

Lemma SFcompare_swap (a b : spec_float) :
  SFcompare b a = option_map CompOpp (SFcompare a b).
Proof.
  destruct a as [sa|sa| |sa ma ea], b as [sb|sb| |sb mb eb]; simpl;
    try destruct sa; try destruct sb; try reflexivity;
    rewrite (Z.compare_antisym ea eb), (Pos_compare_cont_swap mb ma);
    destruct (ea ?= eb)%Z, (Pos.compare_cont Eq ma mb); reflexivity.
Qed.

Lemma SFcompare_refl (a : spec_float) :
  a <> S754_nan -> SFcompare a a = Some Eq.
Proof.
  intros Ha. destruct a as [s|s| |s m e]; simpl.
  - reflexivity.
  - destruct s; reflexivity.
  - congruence.
  - replace (e ?= e)%Z with Eq by (symmetry; apply Z.compare_eq_iff; reflexivity).
    rewrite Pos_compare_cont_refl. destruct s; reflexivity.
Qed.

Lemma is_nan_false (x : float) :
  is_nan x = false -> Prim2SF x <> S754_nan.
Proof.
  unfold is_nan. rewrite FloatAxioms.eqb_spec. unfold SFeqb.
  intros H E. rewrite E in H. discriminate.
Qed.

(** Two non-NaN floats are comparable: not [x < y] gives [y <= x]. *)
Lemma ltb_false_leb (x y : float) :
  is_nan x = false -> is_nan y = false ->
  (x <? y)%float = false -> (y <=? x)%float = true.
Proof.
  intros Hx Hy H. apply is_nan_false in Hx, Hy.
  rewrite FloatAxioms.ltb_spec in H. rewrite FloatAxioms.leb_spec. unfold SFltb, SFleb in *.
  rewrite (SFcompare_swap (Prim2SF x) (Prim2SF y)).
  destruct (Prim2SF x) as [sx|sx| |sx mx ex], (Prim2SF y) as [sy|sy| |sy my ey];
    try congruence;
    destruct (SFcompare _ _) as [[| |]|] eqn:E; simpl in *; try congruence;
    discriminate.
Qed.

(** A float in [0, ∞] that is not equal to [0] is positive. *)
Lemma nonneg_neq0_pos (k : float) :
  (0 <=? k)%float = true -> (k =? 0)%float = false -> (0 <? k)%float = true.
Proof.
  rewrite FloatAxioms.leb_spec, FloatAxioms.eqb_spec, FloatAxioms.ltb_spec. unfold SFleb, SFeqb, SFltb.
  rewrite (SFcompare_swap (Prim2SF 0%float) (Prim2SF k)).
  destruct (SFcompare (Prim2SF 0%float) (Prim2SF k)) as [[| |]|]; simpl; congruence.
Qed.

(** [decline_probability] clamps: the value is a number in [0, 1]. *)
Lemma f64_clamp_unit (v : float) :
  (0 <=? f64_max (f64_min v 1) 0)%float = true /\
  (f64_max (f64_min v 1) 0 <=? 1)%float = true.
Proof.
  unfold f64_min.
  destruct (is_nan v || (1 <? v))%float eqn:E.
  - vm_compute. split; reflexivity.
  - apply Bool.orb_false_iff in E as [Hn Hlt].
    assert (Hle : (v <=? 1)%float = true)
      by (apply ltb_false_leb; [reflexivity | exact Hn | exact Hlt]).
    unfold f64_max. rewrite Hn. simpl.
    destruct (v <? 0)%float eqn:E0.
    + vm_compute. split; reflexivity.
    + split; [apply ltb_false_leb; [exact Hn | reflexivity | exact E0] | exact Hle].
Qed.

End F64Facts.

(* ================================================================= *)
(** ** Properties of the load manager *)

Module EffortFacts.
Import F64 F64Facts Effort.

(** Walk [decide] up to the kill-rate update, naming each guard. *)
Ltac decide_guards :=
  unfold decide;
  let Eb := fresh "Eb" in let Ed := fresh "Ed" in let Ej := fresh "Ej" in
  let Eo := fresh "Eo" in let Ek := fresh "Ek" in let Ef := fresh "Ef" in
  let Ec := fresh "Ec" in let Et := fresh "Et" in let EJ := fresh "EJ" in
  destruct (bool_decide (_ ∈ blocked_queries _)) eqn:Eb;
  [| destruct (LOAD_MANAGEMENT_DISABLED _) eqn:Ed;
  [| destruct (bool_decide (_ ∈ jailed_queries _)) eqn:Ej;
  [| destruct (overloaded _ _ _) as [?ov ?wait_ms] eqn:Eo;
     destruct (read_kill_state _) as [?kr ?lu] eqn:Ek;
     destruct (negb _ && (_ =? 0)%float)%bool eqn:Ef;
  [| destruct (current_effort _ _) as [?qe ?te] eqn:Ec;
     destruct (N.eqb _ ZERO_DURATION) eqn:Et;
  [| destruct (_ && JAIL_QUERIES _ && _)%bool eqn:EJ ]]]]].

Section Decide.
Context {MovingStats : Type} `{!MovingStatsOps MovingStats}.
Implicit Types (lm : LoadManager (MovingStats:=MovingStats)) (ws : MovingStats).

(** C9: for all [f64] values of [kill_rate], [query_effort] and
    [total_effort] (infinite and NaN quotients included), the probability
    [(kill_rate * query_effort / total_effort).min(1.0).max(0.0)] handed
    to the Bernoulli draw lies in [0, 1]. *)
Theorem decline_probability_in_unit (kill_rate query_effort total_effort : float) :
  (0 <=? decline_probability kill_rate query_effort total_effort)%float = true /\
  (decline_probability kill_rate query_effort total_effort <=? 1)%float = true.
Proof. unfold decline_probability. apply f64_clamp_unit. Qed.

Lemma gen_bool_decline_probability (draw : float -> bool) (kr qe te : float) :
  gen_bool draw (decline_probability kr qe te)
  = Some (draw (decline_probability kr qe te)).
Proof.
  unfold gen_bool.
  destruct (f64_clamp_unit (kr * qe / te)%float) as [H0 H1].
  unfold decline_probability. rewrite H0, H1. reflexivity.
Qed.

(** C5: a shape hash in [blocked_queries] is answered [TooExpensive],
    whatever the configuration, wait statistics and state; nothing
    changes. *)
Theorem decide_blocked (cfg : Config) lm ws (shape_hash : N) (query : string)
    (now : Instant) (draw : float -> bool) :
  shape_hash ∈ blocked_queries lm ->
  decide cfg lm ws shape_hash query now draw = Some (TooExpensive, lm).
Proof.
  intros Hb. unfold decide. rewrite bool_decide_true by exact Hb. reflexivity.
Qed.

(** C3: with [GRAPH_LOAD_THRESHOLD = 0] (load management disabled), a
    shape hash outside [blocked_queries] is answered [Proceed]. *)
Theorem decide_disabled_proceeds (cfg : Config) lm ws (shape_hash : N)
    (query : string) (now : Instant) (draw : float -> bool) :
  GRAPH_LOAD_THRESHOLD cfg = 0%N ->
  shape_hash ∉ blocked_queries lm ->
  decide cfg lm ws shape_hash query now draw = Some (Proceed, lm).
Proof.
  intros H0 Hb. unfold decide. rewrite bool_decide_false by exact Hb.
  unfold LOAD_MANAGEMENT_DISABLED, LOAD_THRESHOLD, from_millis. rewrite H0.
  reflexivity.
Qed.

(** The assertion of [update_kill_rate] is its only way to fail. *)
Lemma update_kill_rate_some lm (kr : float) (lu : Instant) (ov : bool)
    (wait_ms : Duration) (now : Instant) :
  (ov || (0 <? kr))%float = true ->
  exists r lm', update_kill_rate lm kr lu ov wait_ms now = Some (r, lm').
Proof.
  intros Hpre. unfold update_kill_rate. rewrite Hpre. simpl.
  destruct (N.ltb _ _); [| eauto].
  destruct (log_event _ _ _ _). eauto.
Qed.

(** [update_kill_rate] writes the [kill_state] only. *)
Lemma update_kill_rate_frame lm (kr : float) (lu : Instant) (ov : bool)
    (wait_ms : Duration) (now : Instant) r lm' :
  update_kill_rate lm kr lu ov wait_ms now = Some (r, lm') ->
  exists ks, lm' = set_kill_state lm ks \/ lm' = lm.
Proof.
  unfold update_kill_rate.
  destruct (negb _); [discriminate |].
  destruct (N.ltb _ _).
  - destruct (log_event _ _ _ _) as [ev ks]. intros [= _ <-]. eauto.
  - intros [= _ <-]. exists (kill_state lm). right. reflexivity.
Qed.

(** The [(!overloaded && kill_rate == 0)] fast path not taken and a
    non-negative [kill_rate]: the assertion of [update_kill_rate] holds. *)
Lemma fast_path_not_taken_pre (ov : bool) (kr : float) :
  (0 <=? kr)%float = true ->
  (negb ov && (kr =? 0)%float)%bool = false ->
  (ov || (0 <? kr))%float = true.
Proof.
  intros Hnn Hf. destruct ov; [reflexivity |]. simpl in *.
  apply nonneg_neq0_pos; assumption.
Qed.

(** C10: every return of [decide] before the kill-rate update (blocked
    query, load management disabled, jailed query, the
    [!overloaded && kill_rate == 0] fast path, zero total effort) leaves
    the whole [LoadManager] state as it was. *)
Theorem decide_early_returns_frame (cfg : Config) lm ws (shape_hash : N)
    (query : string) (now : Instant) (draw : float -> bool) :
  (shape_hash ∈ blocked_queries lm
   \/ LOAD_MANAGEMENT_DISABLED cfg = true
   \/ shape_hash ∈ jailed_queries lm
   \/ (fst (overloaded cfg lm ws) = false
       /\ (kill_rate (kill_state lm) =? 0)%float = true)
   \/ snd (current_effort (query_effort lm) shape_hash) = ZERO_DURATION) ->
  exists d, decide cfg lm ws shape_hash query now draw = Some (d, lm).
Proof.
  intros H. decide_guards; eauto; exfalso;
    apply bool_decide_eq_false in Eb; apply bool_decide_eq_false in Ej;
    unfold read_kill_state in Ek; injection Ek as <- <-;
    try rewrite Eo in H; try rewrite Ec in H; simpl in H;
    apply N.eqb_neq in Et;
    destruct H as [H|[H|[H|[[H1 H2]|H]]]]; try congruence;
    subst; rewrite H2 in Ef; discriminate.
Qed.

(** C6: with the stored [kill_rate] in [0, 1] (the [KillState]
    invariant), no call of [update_kill_rate] made by [decide] fails its
    assertion [overloaded || kill_rate > 0]: [decide] returns without
    panicking (the Bernoulli draw cannot fail either, by C9). *)
Theorem decide_kill_rate_assert_holds (cfg : Config) lm ws (shape_hash : N)
    (query : string) (now : Instant) (draw : float -> bool) :
  (0 <=? kill_rate (kill_state lm))%float = true ->
  (kill_rate (kill_state lm) <=? 1)%float = true ->
  exists r, decide cfg lm ws shape_hash query now draw = Some r.
Proof.
  intros Hnn _. decide_guards; eauto.
  unfold read_kill_state in Ek. injection Ek as <- <-.
  destruct (update_kill_rate_some lm (kill_rate (kill_state lm))
              (last_update (kill_state lm)) ov wait_ms now)
    as [r [lm' Hu]]; [apply fast_path_not_taken_pre; assumption |].
  rewrite Hu, gen_bool_decline_probability.
  destruct (draw _); eauto.
Qed.

(** C1 (amended): in simulate mode, with the stored [kill_rate] in [0, 1],
    [decide] answers [Proceed] for every shape hash outside
    [blocked_queries], whatever the wait statistics, effort and kill
    state. *)
Theorem decide_simulate_proceeds (cfg : Config) lm ws (shape_hash : N)
    (query : string) (now : Instant) (draw : float -> bool) :
  SIMULATE cfg = true ->
  shape_hash ∉ blocked_queries lm ->
  (0 <=? kill_rate (kill_state lm))%float = true ->
  (kill_rate (kill_state lm) <=? 1)%float = true ->
  exists lm', decide cfg lm ws shape_hash query now draw = Some (Proceed, lm').
Proof.
  intros Hsim Hb Hnn _. decide_guards; rewrite ?Hsim; eauto.
  - apply bool_decide_eq_true in Eb. contradiction.
  - unfold read_kill_state in Ek. injection Ek as <- <-.
    destruct (update_kill_rate_some lm (kill_rate (kill_state lm))
                (last_update (kill_state lm)) ov wait_ms now)
      as [r [lm' Hu]]; [apply fast_path_not_taken_pre; assumption |].
    rewrite Hu, gen_bool_decline_probability.
    destruct (draw _); rewrite ?Hsim; eauto.
Qed.

Lemma KILL_RATE_STEP_DOWN_value : KILL_RATE_STEP_DOWN = 0.2%float.
Proof. vm_compute. reflexivity. Qed.

Lemma log_event_rate_update (ks : KillState) (now : Instant) (kr : float)
    (ov : bool) :
  kill_rate (snd (log_event ks now kr ov)) = kill_rate ks /\
  last_update (snd (log_event ks now kr ov)) = last_update ks.
Proof.
  unfold log_event.
  destruct (overload_start ks), ov; simpl;
    repeat match goal with |- context [if ?b then _ else _] => destruct b end;
    simpl; split; reflexivity.
Qed.

(** C2: [update_kill_rate] (its assertion holding) returns [kill_rate]
    and writes nothing when at most 1 s has passed since [last_update];
    otherwise it returns [min(1, kill_rate + 0.1 (1 - kill_rate))] when
    overloaded and [max(0, kill_rate - 0.2)] when not, and commits that
    value with [last_update = now] to the [KillState]. *)
Theorem update_kill_rate_spec lm (kr : float) (lu : Instant) (ov : bool)
    (wait_ms : Duration) (now : Instant) :
  (ov || (0 <? kr))%float = true ->
  let r := if ov then f64_min (kr + 0.1 * (1 - kr))%float 1%float
           else f64_max (kr - 0.2)%float 0%float in
  ((saturating_duration_since now lu <= 1000000000)%N ->
   update_kill_rate lm kr lu ov wait_ms now = Some (kr, lm)) /\
  ((1000000000 < saturating_duration_since now lu)%N ->
   exists ks, update_kill_rate lm kr lu ov wait_ms now
              = Some (r, set_kill_state lm ks)
     /\ kill_rate ks = r /\ last_update ks = now).
Proof.
  intros Hpre r. unfold update_kill_rate. rewrite Hpre. simpl negb. cbv iota.
  split.
  - intros Hle. replace (N.ltb _ _) with false; [reflexivity |].
    symmetry. apply N.ltb_ge. exact Hle.
  - intros Hlt. replace (N.ltb _ _) with true
      by (symmetry; apply N.ltb_lt; exact Hlt).
    rewrite KILL_RATE_STEP_DOWN_value.
    match goal with
    |- context [log_event ?ks ?n ?k ?o] =>
        pose proof (log_event_rate_update ks n k o) as [Hk Hl];
        destruct (log_event ks n k o) as [ev ks'] eqn:E
    end.
    simpl in Hk, Hl. exists ks'. subst r. repeat split; assumption.
Qed.

(** [decide] keeps [blocked_queries] and only ever adds to
    [jailed_queries]. *)
Lemma decide_jail_grows (cfg : Config) lm ws (shape_hash : N) (query : string)
    (now : Instant) (draw : float -> bool) d lm' :
  decide cfg lm ws shape_hash query now draw = Some (d, lm') ->
  blocked_queries lm' = blocked_queries lm /\
  jailed_queries lm ⊆ jailed_queries lm'.
Proof.
  decide_guards;
    try (intros [= _ <-]; simpl; split; [reflexivity | set_solver]).
  destruct (update_kill_rate _ _ _ _ _ _) as [[r lm1]|] eqn:Hu; [| discriminate].
  apply update_kill_rate_frame in Hu as [ks [-> | ->]];
    destruct (gen_bool _ _) as [[]|]; try discriminate;
    intros [= _ <-]; simpl; split; (reflexivity || set_solver).
Qed.

Lemma step_jail_grows (cfg : Config) lm (op : Op (MovingStats:=MovingStats)) lm' :
  step cfg lm op = Some lm' ->
  blocked_queries lm' = blocked_queries lm /\
  jailed_queries lm ⊆ jailed_queries lm'.
Proof.
  destruct op as [ws h q now draw | h d now | d now]; simpl.
  - destruct (decide cfg lm ws h q now draw) as [[d lm1]|] eqn:E;
      [| discriminate]. intros [= <-]. eapply decide_jail_grows. exact E.
  - unfold record_work. destruct (negb _); intros [= <-]; simpl;
      split; (reflexivity || set_solver).
  - intros [= <-]. simpl. split; (reflexivity || set_solver).
Qed.

Lemma run_jail_grows (cfg : Config) (ops : list (Op (MovingStats:=MovingStats))) :
  forall lm lm', run cfg lm ops = Some lm' ->
  blocked_queries lm' = blocked_queries lm /\
  jailed_queries lm ⊆ jailed_queries lm'.
Proof.
  induction ops as [| op ops IH]; simpl; intros lm lm' H.
  - injection H as <-. split; [reflexivity | set_solver].
  - destruct (step cfg lm op) as [lm1|] eqn:E; [| discriminate].
    apply step_jail_grows in E as [Eb Ej].
    apply IH in H as [Hb Hj]. split; [congruence | set_solver].
Qed.

(** A jailed shape hash that is not blocked is answered from the jail
    check, with no change of state. *)
Lemma decide_jailed (cfg : Config) lm ws (shape_hash : N) (query : string)
    (now : Instant) (draw : float -> bool) :
  shape_hash ∉ blocked_queries lm ->
  LOAD_MANAGEMENT_DISABLED cfg = false ->
  shape_hash ∈ jailed_queries lm ->
  decide cfg lm ws shape_hash query now draw
  = Some (if SIMULATE cfg then Proceed else TooExpensive, lm).
Proof.
  intros Hb Hd Hj. unfold decide.
  rewrite bool_decide_false by exact Hb. rewrite Hd.
  rewrite bool_decide_true by exact Hj. reflexivity.
Qed.

(** C4: a [decide] call that reaches the jailing step with a known query,
    jailing enabled and [query_effort / total_effort > JAIL_THRESHOLD]
    adds the shape hash to the jailed set and answers [TooExpensive]
    ([Proceed] in simulate mode, the shape hash jailed all the same);
    after any later sequence of operations, every [decide] for that shape
    hash gives the same answer from the jail check, with no change of
    state. *)
Theorem decide_jails (cfg : Config) lm ws (shape_hash : N) (query : string)
    (now : Instant) (draw : float -> bool) (q t : Duration) :
  shape_hash ∉ blocked_queries lm ->
  LOAD_MANAGEMENT_DISABLED cfg = false ->
  shape_hash ∉ jailed_queries lm ->
  (negb (fst (overloaded cfg lm ws))
   && (kill_rate (kill_state lm) =? 0)%float)%bool = false ->
  current_effort (query_effort lm) shape_hash = (Some q, t) ->
  t <> ZERO_DURATION ->
  JAIL_QUERIES cfg = true ->
  (JAIL_THRESHOLD cfg <? N_to_f64 (as_millis q) / N_to_f64 (as_millis t))%float
    = true ->
  let answer := if SIMULATE cfg then Proceed else TooExpensive in
  let jailed := set_jailed lm ({[shape_hash]} ∪ jailed_queries lm) in
  decide cfg lm ws shape_hash query now draw = Some (answer, jailed) /\
  forall ops lm2, run cfg jailed ops = Some lm2 ->
  forall ws' query' now' draw',
    decide cfg lm2 ws' shape_hash query' now' draw' = Some (answer, lm2).
Proof.
  intros Hb Hd Hj Hf Hc Ht HJ Hr answer jailed. split.
  - unfold decide.
    rewrite bool_decide_false by exact Hb. rewrite Hd.
    rewrite bool_decide_false by exact Hj.
    destruct (overloaded cfg lm ws) as [ov w]. simpl in Hf.
    unfold read_kill_state. rewrite Hf, Hc.
    apply N.eqb_neq in Ht. rewrite Ht. simpl. rewrite HJ, Hr. reflexivity.
  - intros ops lm2 Hrun ws' query' now' draw'.
    apply run_jail_grows in Hrun as [Hb2 Hj2]. simpl in Hb2, Hj2.
    apply decide_jailed; [rewrite Hb2; exact Hb | exact Hd | set_solver].
Qed.

End Decide.
End EffortFacts.

(* ================================================================= *)
(** ** Properties of the stopwatch *)

Module StopwatchFacts.
Import Stopwatch.

(** C8: [end_section(id)] with an empty stack, or with a top other than
    [id], changes nothing: stack, timer and counters are as they were
    (the mismatch is only logged). *)
Theorem end_section_mismatch_noop (sw : StopwatchMetrics) (id : string)
    (now : Instant) :
  (last (section_stack (inner sw)) = None
   \/ exists top, last (section_stack (inner sw)) = Some top /\ top <> id) ->
  end_section sw id now = sw.
Proof.
  intros H. destruct sw as [dis inn]. unfold end_section. simpl in *.
  destruct dis; [reflexivity |]. simpl. f_equal.
  unfold inner_end_section.
  destruct H as [-> | [top [-> Hne]]]; [reflexivity |].
  apply String.eqb_neq in Hne. rewrite Hne. reflexivity.
Qed.

Fixpoint count_pushed (l : list (string * bool)) : nat :=
  match l with
  | [] => 0
  | (_, b) :: l => (if b then 1 else 0) + count_pushed l
  end.

Lemma count_pushed_app (l1 l2 : list (string * bool)) :
  count_pushed (l1 ++ l2) = count_pushed l1 + count_pushed l2.
Proof.
  induction l1 as [| [s b] l1 IH]; simpl; [reflexivity |]. rewrite IH. lia.
Qed.

Lemma count_pushed_delete (l : list (string * bool)) (k : nat) (x : string * bool) :
  l !! k = Some x ->
  count_pushed l = (if snd x then 1 else 0) + count_pushed (delete k l).
Proof.
  intros Hk. rewrite delete_take_drop.
  rewrite <- (take_drop_middle l k x Hk) at 1.
  rewrite !count_pushed_app. destruct x as [s b]. simpl. lia.
Qed.

Lemma length_removelast {A} (l : list A) :
  length (removelast l) = length l - 1.
Proof.
  induction l as [| a l IH]; [reflexivity |].
  destruct l as [| b l]; [reflexivity |].
  change (removelast (a :: b :: l)) with (a :: removelast (b :: l)).
  simpl in *. rewrite IH. lia.
Qed.

Lemma inner_end_section_length (inn : StopwatchInner) (id : string)
    (now : Instant) :
  length (section_stack inn) - 1
  <= length (section_stack (inner_end_section now id inn)).
Proof.
  unfold inner_end_section.
  destruct (last _) as [top|]; [| lia].
  destruct (String.eqb top id); simpl; [| lia].
  rewrite length_removelast. lia.
Qed.

(** The invariant of a [World]: below the base section, the stack holds
    at least one entry for each live guard that pushed one, and while the
    stopwatch is enabled every live guard has pushed. *)
Definition world_inv (w : World) : Prop :=
  1 + count_pushed (live w) <= length (section_stack (inner (stopwatch w)))
  /\ (disabled (stopwatch w) = false -> Forall (fun p => snd p = true) (live w)).

Lemma init_world_inv (now : Instant) : world_inv (init_world now).
Proof. split; simpl; [lia | constructor]. Qed.

Lemma sw_step_inv (w : World) (op : SwOp) :
  world_inv w -> world_inv (sw_step w op).
Proof.
  intros [Hlen Hall]. destruct op as [id now | k now |]; simpl.
  - unfold start_section. destruct (disabled (stopwatch w)) eqn:Ed; simpl.
    + split; simpl.
      * rewrite count_pushed_app. simpl. lia.
      * intros Hdis. congruence.
    + split; simpl.
      * rewrite count_pushed_app, length_app. simpl. lia.
      * intros _. apply Forall_app. split; [auto |].
        constructor; [reflexivity | constructor].
  - destruct (live w !! k) as [[id b]|] eqn:Hk; [| split; assumption].
    pose proof (count_pushed_delete (live w) k (id, b) Hk) as Hc. simpl in Hc.
    unfold end_section. destruct (disabled (stopwatch w)) eqn:Ed; simpl.
    + split; simpl.
      * destruct b; lia.
      * intros Hdis. congruence.
    + specialize (Hall eq_refl).
      pose proof (Forall_lookup_1 _ _ _ _ Hall Hk) as Hb. simpl in Hb. subst b.
      pose proof (inner_end_section_length (inner (stopwatch w)) id now).
      split; simpl.
      * lia.
      * intros _. apply Forall_delete. exact Hall.
  - split; simpl; [exact Hlen | discriminate].
Qed.

Lemma sw_run_inv (ops : list SwOp) :
  forall w, world_inv w -> world_inv (sw_run w ops).
Proof.
  induction ops as [| op ops IH]; intros w Hw; simpl; [exact Hw |].
  apply IH. apply sw_step_inv. exact Hw.
Qed.

(** C7: whatever sequence of [start_section] calls, guard drops and
    [disable] follows [StopwatchMetrics::new], the section stack is never
    empty. *)
Theorem section_stack_nonempty (now : Instant) (ops : list SwOp) :
  1 <= length (section_stack (inner (stopwatch (sw_run (init_world now) ops)))).
Proof.
  destruct (sw_run_inv ops (init_world now) (init_world_inv now)) as [H _].
  lia.
Qed.

End StopwatchFacts.

(* ================================================================= *)
(** ** Further properties of the load manager *)

Module EffortExtras.
Import F64 F64Facts Effort EffortFacts.

(** [KillState::log_event] keeps [overload_start] in step with the
    overload: an overloaded call sets it (to [now] when it was unset) or
    keeps it; a non-overloaded call with [kill_rate == 0] clears it; a
    non-overloaded call with a positive rate leaves it alone. *)
Theorem log_event_overload_start (ks : KillState) (now : Instant)
    (kr : float) (ov : bool) :
  (ov = true ->
   overload_start (snd (log_event ks now kr ov))
   = Some (match overload_start ks with Some s => s | None => now end)) /\
  (ov = false -> (kr =? 0)%float = true ->
   overload_start (snd (log_event ks now kr ov)) = None) /\
  (ov = false -> (kr =? 0)%float = false ->
   overload_start (snd (log_event ks now kr ov)) = overload_start ks).
Proof.
  unfold log_event.
  destruct (overload_start ks) as [s|] eqn:Es; repeat split; intros; subst; simpl;
    repeat match goal with
           | H : (_ =? _)%float = _ |- _ => rewrite H
           | |- context [if ?b then _ else _] => destruct b eqn:?
           end; simpl; try rewrite Es; reflexivity.
Qed.

(** While overloaded, [log_event] reports [Start] or [Ongoing] at most
    once per 30 s: after a call that reports one of them, every
    overloaded call within the next 30 s reports [Skip]. *)
Theorem log_event_throttled (ks : KillState) (now : Instant) (kr : float) :
  fst (log_event ks now kr true) <> Skip ->
  forall (now' : Instant) (kr' : float),
    (saturating_duration_since now' now <= from_secs 30)%N ->
    fst (log_event (snd (log_event ks now kr true)) now' kr' true) = Skip.
Proof.
  intros Hne now' kr' Hle.
  assert (Hf : N.ltb (from_secs 30) (saturating_duration_since now' now) = false)
    by (apply N.ltb_ge; exact Hle).
  unfold log_event in *.
  destruct (overload_start ks) as [s|];
    cbn -[from_secs saturating_duration_since N.ltb] in *.
  - destruct (N.ltb _ _) eqn:E; cbn -[from_secs saturating_duration_since N.ltb] in *;
      [| congruence].
    rewrite Hf. reflexivity.
  - rewrite Hf. reflexivity.
Qed.

Lemma f64_min_one (x : float) :
  is_nan (f64_min x 1) = false /\ (f64_min x 1 <=? 1)%float = true.
Proof.
  unfold f64_min. destruct (is_nan x || (1 <? x))%float eqn:E.
  - vm_compute. split; reflexivity.
  - apply Bool.orb_false_iff in E as [Hn Hlt]. split; [exact Hn |].
    apply ltb_false_leb; [reflexivity | exact Hn | exact Hlt].
Qed.

Lemma f64_max_zero (x : float) :
  is_nan (f64_max x 0) = false /\ (0 <=? f64_max x 0)%float = true.
Proof.
  unfold f64_max. destruct (is_nan x || (x <? 0))%float eqn:E.
  - vm_compute. split; reflexivity.
  - apply Bool.orb_false_iff in E as [Hn Hlt]. split; [exact Hn |].
    apply ltb_false_leb; [exact Hn | reflexivity | exact Hlt].
Qed.

Section Decide.
Context {MovingStats : Type} `{!MovingStatsOps MovingStats}.
Implicit Types (lm : LoadManager (MovingStats:=MovingStats)) (ws : MovingStats).

(** When the interval has passed, the new kill rate is never NaN; an
    overloaded step never gives a rate above 1 and a non-overloaded step
    never a rate below 0, whatever the rate it starts from. *)
Theorem update_kill_rate_step_bounds lm (kr : float) (lu : Instant) (ov : bool)
    (wait_ms : Duration) (now : Instant) r lm' :
  (KILL_RATE_UPDATE_INTERVAL < saturating_duration_since now lu)%N ->
  update_kill_rate lm kr lu ov wait_ms now = Some (r, lm') ->
  is_nan r = false /\
  (ov = true -> (r <=? 1)%float = true) /\
  (ov = false -> (0 <=? r)%float = true).
Proof.
  intros Hlt. unfold update_kill_rate.
  destruct (negb _); [discriminate |].
  replace (N.ltb _ _) with true by (symmetry; apply N.ltb_lt; exact Hlt).
  destruct (log_event _ _ _ _) as [ev ks]. intros [= <- _].
  destruct ov.
  - destruct (f64_min_one (kr + KILL_RATE_STEP_UP * (1 - kr))%float) as [H1 H2].
    repeat split; auto; discriminate.
  - destruct (f64_max_zero (kr - KILL_RATE_STEP_DOWN)%float) as [H1 H2].
    repeat split; auto; discriminate.
Qed.

(** [LoadManager::overloaded] says "overloaded" exactly when the pool's
    or the semaphore's average wait exceeds [LOAD_THRESHOLD]. *)
Theorem overloaded_iff (cfg : Config) lm ws :
  fst (overloaded cfg lm ws) = true <->
  exists a, (ms_average ws = Some a \/ ms_average (semaphore_wait_stats lm) = Some a)
            /\ (LOAD_THRESHOLD cfg < a)%N.
Proof.
  unfold overloaded, option_max. simpl.
  destruct (ms_average ws) as [x|], (ms_average (semaphore_wait_stats lm)) as [y|];
    split.
  - intros H. apply N.ltb_lt in H.
    destruct (N.max_spec x y) as [[Hm E]|[Hm E]]; rewrite E in H; eauto.
  - intros [a [[[= <-]|[= <-]] Ha]]; apply N.ltb_lt; lia.
  - intros H. apply N.ltb_lt in H. eauto.
  - intros [a [[[= <-]|?] Ha]]; [apply N.ltb_lt; lia | discriminate].
  - intros H. apply N.ltb_lt in H. eauto.
  - intros [a [[?|[= <-]] Ha]]; [discriminate | apply N.ltb_lt; lia].
  - discriminate.
  - intros [a [[?|?] _]]; discriminate.
Qed.


(** [decide] jails at most the shape it is asked about, and never a shape
    that has no recorded effort. *)
Theorem decide_jails_only_known (cfg : Config) lm ws (shape_hash : N)
    (query : string) (now : Instant) (draw : float -> bool) d lm' :
  decide cfg lm ws shape_hash query now draw = Some (d, lm') ->
  jailed_queries lm' ⊆ {[shape_hash]} ∪ jailed_queries lm /\
  (effort (query_effort lm) !! shape_hash = None ->
   jailed_queries lm' = jailed_queries lm).
Proof.
  decide_guards;
    try (intros [= _ <-]; split; [set_solver | reflexivity]).
  - intros [= _ <-]. simpl. split; [set_solver |].
    intros Hn. exfalso. unfold current_effort in Ec. rewrite Hn in Ec.
    injection Ec as <- _. simpl in EJ. discriminate.
  - destruct (update_kill_rate _ _ _ _ _ _) as [[r lm1]|] eqn:Hu; [| discriminate].
    apply update_kill_rate_frame in Hu as [ks [-> | ->]];
      destruct (gen_bool _ _) as [[]|]; try discriminate;
      intros [= _ <-]; simpl; split; (reflexivity || set_solver).
Qed.

(** [decide] answers [TooExpensive] only for a blocked shape or a shape
    that is jailed afterwards, and [Throttle] only outside simulate mode. *)
Theorem decide_rejection_reasons (cfg : Config) lm ws (shape_hash : N)
    (query : string) (now : Instant) (draw : float -> bool) lm' :
  (decide cfg lm ws shape_hash query now draw = Some (TooExpensive, lm') ->
   shape_hash ∈ blocked_queries lm \/ shape_hash ∈ jailed_queries lm') /\
  (decide cfg lm ws shape_hash query now draw = Some (Throttle, lm') ->
   SIMULATE cfg = false).
Proof.
  split; decide_guards; intros H.
  (* too expensive *)
  - left. apply bool_decide_eq_true in Eb. exact Eb.
  - discriminate.
  - right. injection H as _ <-. apply bool_decide_eq_true in Ej. exact Ej.
  - discriminate.
  - discriminate.
  - right. injection H as _ <-. simpl. set_solver.
  - destruct (update_kill_rate _ _ _ _ _ _) as [[r lm1]|]; [| discriminate].
    destruct (gen_bool _ _) as [[]|]; [| | discriminate];
      destruct (SIMULATE cfg); discriminate.
  (* throttle *)
  - discriminate.
  - discriminate.
  - destruct (SIMULATE cfg); discriminate.
  - discriminate.
  - discriminate.
  - destruct (SIMULATE cfg); discriminate.
  - destruct (update_kill_rate _ _ _ _ _ _) as [[r lm1]|]; [| discriminate].
    destruct (gen_bool _ _) as [[]|]; [| | discriminate];
      destruct (SIMULATE cfg); congruence.
Qed.

(** With no overload and a zero kill rate, [decide] answers [Proceed] to
    every shape that is neither blocked nor jailed, and changes nothing. *)
Theorem decide_fast_path_proceeds (cfg : Config) lm ws (shape_hash : N)
    (query : string) (now : Instant) (draw : float -> bool) :
  shape_hash ∉ blocked_queries lm ->
  shape_hash ∉ jailed_queries lm ->
  fst (overloaded cfg lm ws) = false ->
  (kill_rate (kill_state lm) =? 0)%float = true ->
  decide cfg lm ws shape_hash query now draw = Some (Proceed, lm).
Proof.
  intros Hb Hj Ho Hk. unfold decide.
  rewrite bool_decide_false by exact Hb.
  destruct (LOAD_MANAGEMENT_DISABLED cfg); [reflexivity |].
  rewrite bool_decide_false by exact Hj.
  destruct (overloaded cfg lm ws) as [ov w]. simpl in Ho. subst ov.
  unfold read_kill_state. rewrite Hk. reflexivity.
Qed.

(** A freshly created [LoadManager] answers [Proceed] to every shape that
    is not in the blocked list as long as the system is not overloaded. *)
Theorem new_manager_proceeds (cfg : Config) (blocked_hashes : list N)
    (window_size bin_size : Duration) (stats_default : MovingStats)
    (created : Instant) ws (shape_hash : N) (query : string) (now : Instant)
    (draw : float -> bool) :
  let lm := LoadManager_new blocked_hashes window_size bin_size stats_default created in
  shape_hash ∉ blocked_hashes ->
  fst (overloaded cfg lm ws) = false ->
  decide cfg lm ws shape_hash query now draw = Some (Proceed, lm).
Proof.
  intros lm Hb Ho. unfold decide.
  rewrite bool_decide_false
    by (subst lm; simpl; rewrite elem_of_list_to_set; exact Hb).
  destruct (LOAD_MANAGEMENT_DISABLED cfg); [reflexivity |].
  rewrite bool_decide_false by (subst lm; simpl; set_solver).
  destruct (overloaded cfg lm ws) as [ov w]. simpl in Ho. subst ov.
  reflexivity.
Qed.

End Decide.
End EffortExtras.

(* ================================================================= *)
(** ** Further properties of the stopwatch *)

Module StopwatchExtras.
Import F64 Stopwatch StopwatchFacts.

(** [record_and_reset] charges the time since the last reset to the
    section on top of the stack and to no other, leaves the stack alone
    and resets the timer to [now]; with an empty stack no counter moves. *)
Theorem record_and_reset_charges_top (now : Instant) (inn : StopwatchInner) :
  let r := record_and_reset now inn in
  section_stack r = section_stack inn /\ timer r = now /\
  (last (section_stack inn) = None -> counter r = counter inn) /\
  (forall top, last (section_stack inn) = Some top ->
     counter r !! top
     = Some ((match counter inn !! top with Some v => v | None => 0 end)
             + as_secs_f64 (now - timer inn))%float
     /\ forall l, l <> top -> counter r !! l = counter inn !! l).
Proof.
  intros r. subst r. unfold record_and_reset; simpl.
  split; [reflexivity |]. split; [reflexivity |]. split.
  - intros Hn. rewrite Hn. reflexivity.
  - intros top Ht. rewrite Ht. split.
    + apply lookup_insert_eq.
    + intros l Hl. apply lookup_insert_ne. congruence.
Qed.

Lemma removelast_snoc {A} (l : list A) (x : A) : removelast (l ++ [x]) = l.
Proof. apply removelast_last. Qed.

(** On an enabled stopwatch, starting a section and then ending it
    restores the stack as it was and leaves the timer at the end time. *)
Theorem start_end_section_roundtrip (sw : StopwatchMetrics) (id : string)
    (t1 t2 : Instant) :
  disabled sw = false ->
  let sw1 := fst (start_section sw id t1) in
  let sw2 := end_section sw1 id t2 in
  section_stack (inner sw2) = section_stack (inner sw)
  /\ timer (inner sw2) = t2 /\ disabled sw2 = false.
Proof.
  intros Hd sw1 sw2. subst sw1 sw2.
  unfold start_section, end_section. rewrite Hd. simpl.
  unfold inner_end_section. simpl. rewrite last_snoc, String.eqb_refl. simpl.
  rewrite removelast_snoc. repeat split; assumption.
Qed.

(** [disable] is for good: from a disabled stopwatch, no sequence of
    section starts, guard drops or further [disable] calls enables it
    again or changes its stack, timer or counters. *)
Theorem disabled_stopwatch_frozen (w : World) (ops : list SwOp) :
  disabled (stopwatch w) = true ->
  disabled (stopwatch (sw_run w ops)) = true /\
  inner (stopwatch (sw_run w ops)) = inner (stopwatch w).
Proof.
  revert w. induction ops as [| op ops IH]; intros w Hd; simpl; [auto |].
  destruct (IH (sw_step w op)) as [H1 H2].
  - destruct op as [id now | k now |]; simpl.
    + unfold start_section. rewrite Hd. exact Hd.
    + destruct (live w !! k) as [[id b]|]; [| exact Hd].
      unfold end_section. rewrite Hd. exact Hd.
    + reflexivity.
  - split; [exact H1 |]. rewrite H2.
    destruct op as [id now | k now |]; simpl.
    + unfold start_section. rewrite Hd. reflexivity.
    + destruct (live w !! k) as [[id b]|]; [| reflexivity].
      unfold end_section. rewrite Hd. reflexivity.
    + reflexivity.
Qed.

Lemma delete_snoc {A} (l : list A) (x : A) : delete (length l) (l ++ [x]) = l.
Proof.
  rewrite delete_take_drop, take_app_length.
  rewrite drop_ge by (rewrite length_app; simpl; lia). apply app_nil_r.
Qed.

Lemma lifo_step (w : World) (op : SwOp) :
  disabled (stopwatch w) = false ->
  section_stack (inner (stopwatch w)) = "unknown"%string :: map fst (live w) ->
  match op with
  | SwStart _ _ => true
  | SwDrop k _ => Nat.eqb k (length (live w) - 1)
  | SwDisable => false
  end = true ->
  disabled (stopwatch (sw_step w op)) = false /\
  section_stack (inner (stopwatch (sw_step w op)))
  = "unknown"%string :: map fst (live (sw_step w op)).
Proof.
  intros Hd Hs Hop. destruct op as [id now | k now |]; simpl.
  - unfold start_section. rewrite Hd. simpl. split; [reflexivity |].
    rewrite Hs, map_app. reflexivity.
  - apply Nat.eqb_eq in Hop. subst k.
    destruct w as [sw L]; simpl in *.
    destruct L as [| x l _] using rev_ind; [simpl; auto |].
    rewrite length_app. simpl. replace (length l + 1 - 1) with (length l) by lia.
    rewrite lookup_app_r, Nat.sub_diag by lia. simpl. destruct x as [id b].
    simpl. rewrite delete_snoc. unfold end_section. rewrite Hd. simpl.
    split; [reflexivity |].
    unfold inner_end_section. rewrite Hs, map_app. simpl.
    rewrite app_comm_cons, last_snoc, String.eqb_refl. simpl.
    rewrite Hs, map_app. change (map fst [(id, b)]) with [id]. rewrite app_comm_cons, removelast_snoc. reflexivity.
  - discriminate.
Qed.

(** Used as a stack (no [disable], each drop of the most recently started
    live guard), the stopwatch's stack is always the base section
    ["unknown"] followed by the ids of the live guards, oldest first. *)
Theorem lifo_stack_mirrors_guards (now : Instant) (ops : list SwOp) :
  lifo_ok (init_world now) ops = true ->
  section_stack (inner (stopwatch (sw_run (init_world now) ops)))
  = "unknown"%string :: map fst (live (sw_run (init_world now) ops)).
Proof.
  assert (Hgen : forall w, disabled (stopwatch w) = false ->
            section_stack (inner (stopwatch w)) = "unknown"%string :: map fst (live w) ->
            lifo_ok w ops = true ->
            section_stack (inner (stopwatch (sw_run w ops)))
            = "unknown"%string :: map fst (live (sw_run w ops))).
  { induction ops as [| op ops IH]; intros w Hd Hs Hok; simpl; [exact Hs |].
    simpl in Hok. apply andb_prop in Hok as [Hop Hok].
    destruct (lifo_step w op Hd Hs Hop) as [Hd' Hs'].
    apply IH; assumption. }
  intros Hok. apply Hgen; [reflexivity | reflexivity | exact Hok].
Qed.

End StopwatchExtras.

(* ================================================================= *)
(** ** The theorems on concrete inputs *)

Module Examples.
Import F64 Effort EffortFacts Stopwatch StopwatchFacts.

(** A decidable proposition on closed data, settled by evaluation. *)
Ltac decide_by_eval :=
  match goal with |- ?P => apply (bool_decide_unpack P); vm_compute; exact I end.

(** C1 fails as stated: in simulate mode a blocked shape hash is still
    answered [TooExpensive]. *)
Lemma decide_simulate_blocked_rejects :
  SIMULATE cfg_simulate = true /\
  decide cfg_simulate lm_example [] 0xDEADBEEF "" 0 (fun _ => false)
  = Some (TooExpensive, lm_example).
Proof. split; vm_compute; reflexivity. Qed.

(** Outside the [KillState] invariant, simulate mode does not answer
    [Proceed] either: a negative [kill_rate] fails the assertion of
    [update_kill_rate]. *)
Lemma decide_simulate_negative_rate_panics :
  decide cfg_simulate lm_negative_rate [] 2 "" 0 (fun _ => false) = None.
Proof. vm_compute. reflexivity. Qed.

Lemma decide_simulate_proceeds_witness :
  SIMULATE cfg_simulate = true /\ (1%N ∉ blocked_queries lm_example) /\
  (exists lm', decide cfg_simulate lm_example ws_overloaded 1 "" 100000000000
                (fun _ => true) = Some (Proceed, lm')).
Proof.
  split; [reflexivity | split].
  - decide_by_eval.
  - apply decide_simulate_proceeds.
    + reflexivity.
    + decide_by_eval.
    + vm_compute. reflexivity.
    + vm_compute. reflexivity.
Defined.

Lemma update_kill_rate_spec_witness :
  (false || (0 <? 0.5))%float = true /\
  exists ks, update_kill_rate lm_example 0.5 0 false 0 2000000000
             = Some (f64_max (0.5 - 0.2)%float 0%float, set_kill_state lm_example ks)
    /\ kill_rate ks = f64_max (0.5 - 0.2)%float 0%float
    /\ last_update ks = 2000000000%N.
Proof.
  split; [vm_compute; reflexivity |].
  apply (update_kill_rate_spec lm_example 0.5 0 false 0 2000000000).
  - vm_compute. reflexivity.
  - vm_compute. reflexivity.
Defined.

Lemma decide_disabled_proceeds_witness :
  GRAPH_LOAD_THRESHOLD cfg_disabled = 0%N /\
  decide cfg_disabled lm_example ws_overloaded 1 "" 0 (fun _ => true)
  = Some (Proceed, lm_example).
Proof.
  split; [reflexivity |].
  apply decide_disabled_proceeds.
  - reflexivity.
  - decide_by_eval.
Defined.

Lemma decide_jails_witness :
  (JAIL_THRESHOLD cfg_example
     <? N_to_f64 (as_millis 5000000) / N_to_f64 (as_millis 5000000))%float = true /\
  decide cfg_example lm_example ws_overloaded 1 "" 100000000000 (fun _ => true)
  = Some (TooExpensive, set_jailed lm_example ({[1%N]} ∪ jailed_queries lm_example)).
Proof.
  split; [vm_compute; reflexivity |].
  apply (decide_jails cfg_example lm_example ws_overloaded 1 "" 100000000000
           (fun _ => true) 5000000 5000000).
  - decide_by_eval.
  - reflexivity.
  - decide_by_eval.
  - vm_compute. reflexivity.
  - vm_compute. reflexivity.
  - discriminate.
  - reflexivity.
  - vm_compute. reflexivity.
Defined.

Lemma decide_blocked_witness :
  0xDEADBEEF%N ∈ blocked_queries lm_example /\
  decide cfg_disabled lm_example ws_overloaded 0xDEADBEEF "" 0 (fun _ => true)
  = Some (TooExpensive, lm_example).
Proof.
  split.
  - decide_by_eval.
  - apply decide_blocked. decide_by_eval.
Defined.

Lemma decide_kill_rate_assert_holds_witness :
  (0 <=? kill_rate (kill_state lm_example))%float = true /\
  exists r, decide cfg_example lm_example ws_overloaded 1 "" 100000000000
              (fun _ => false) = Some r.
Proof.
  split; [vm_compute; reflexivity |].
  apply decide_kill_rate_assert_holds; vm_compute; reflexivity.
Defined.

Lemma decide_early_returns_frame_witness :
  exists d, decide cfg_example lm_example ws_overloaded 0xDEADBEEF "" 0
              (fun _ => true) = Some (d, lm_example).
Proof.
  apply decide_early_returns_frame. left.
  decide_by_eval.
Defined.

Lemma end_section_mismatch_noop_witness :
  last (section_stack (inner (Stopwatch.new 0))) = Some "unknown"%string /\
  end_section (Stopwatch.new 0) "other" 5 = Stopwatch.new 0.
Proof.
  split; [reflexivity |].
  apply end_section_mismatch_noop. right. exists "unknown"%string.
  split; [reflexivity |]. apply String.eqb_neq. reflexivity.
Defined.


Lemma log_event_overload_start_witness :
  let ks := snd (log_event (KillState_new 0) 5 0.5 true) in
  overload_start ks = Some 5%N /\
  overload_start (snd (log_event ks 9 0 false)) = None /\
  overload_start (snd (log_event ks 9 0.5 false)) = Some 5%N.
Proof.
  intros ks.
  split; [| split].
  - exact (proj1 (EffortExtras.log_event_overload_start (KillState_new 0) 5 0.5 true) eq_refl).
  - apply (proj1 (proj2 (EffortExtras.log_event_overload_start ks 9 0 false)));
      [reflexivity | vm_compute; reflexivity].
  - rewrite (proj2 (proj2 (EffortExtras.log_event_overload_start ks 9 0.5 false)));
      [reflexivity | reflexivity | vm_compute; reflexivity].
Defined.

Lemma log_event_throttled_witness :
  fst (log_event (KillState_new 0) 10 0.5 true) <> Skip /\
  fst (log_event (snd (log_event (KillState_new 0) 10 0.5 true)) 20 0.5 true) = Skip.
Proof.
  split.
  - vm_compute. discriminate.
  - apply (EffortExtras.log_event_throttled (KillState_new 0) 10 0.5).
    + vm_compute. discriminate.
    + apply N.leb_le. vm_compute. reflexivity.
Defined.

Lemma update_kill_rate_step_bounds_witness :
  exists r lm', update_kill_rate lm_example 0.5 0 false 0 2000000000 = Some (r, lm')
    /\ is_nan r = false /\ (0 <=? r)%float = true.
Proof.
  destruct (update_kill_rate lm_example 0.5 0 false 0 2000000000) as [[r lm']|] eqn:E;
    [| vm_compute in E; discriminate].
  exists r, lm'. split; [reflexivity |].
  destruct (EffortExtras.update_kill_rate_step_bounds lm_example 0.5 0 false 0 2000000000
              r lm') as [H1 [_ H3]].
  - vm_compute. reflexivity.
  - exact E.
  - split; [exact H1 | apply H3; reflexivity].
Defined.

Lemma overloaded_iff_witness :
  fst (overloaded cfg_example lm_example ws_overloaded) = true.
Proof.
  apply EffortExtras.overloaded_iff. exists 50000000%N. split.
  - left. vm_compute. reflexivity.
  - vm_compute. reflexivity.
Defined.


Lemma decide_jails_only_known_witness :
  exists d lm', decide cfg_example lm_example ws_overloaded 2 "" 100000000000
                  (fun _ => true) = Some (d, lm')
    /\ jailed_queries lm' = jailed_queries lm_example.
Proof.
  destruct (decide cfg_example lm_example ws_overloaded 2 "" 100000000000 (fun _ => true))
    as [[d lm']|] eqn:E; [| vm_compute in E; discriminate].
  exists d, lm'. split; [reflexivity |].
  apply (proj2 (EffortExtras.decide_jails_only_known cfg_example lm_example ws_overloaded
                  2 "" 100000000000 (fun _ => true) d lm' E)).
  vm_compute. reflexivity.
Defined.

Lemma decide_rejection_reasons_witness :
  (0xDEADBEEF%N ∈ blocked_queries lm_example \/ 0xDEADBEEF%N ∈ jailed_queries lm_example) /\
  exists lm', decide cfg_example lm_example ws_overloaded 2 "" 100000000000
                (fun _ => true) = Some (Throttle, lm') /\ SIMULATE cfg_example = false.
Proof.
  split.
  - apply (proj1 (EffortExtras.decide_rejection_reasons cfg_example lm_example ws_overloaded
                    0xDEADBEEF "" 0 (fun _ => true) lm_example)).
    vm_compute. reflexivity.
  - destruct (decide cfg_example lm_example ws_overloaded 2 "" 100000000000 (fun _ => true))
      as [[d lm']|] eqn:E; [| vm_compute in E; discriminate].
    assert (Hd : d = Throttle) by (vm_compute in E; congruence). subst d.
    exists lm'. split; [reflexivity |].
    apply (proj2 (EffortExtras.decide_rejection_reasons cfg_example lm_example ws_overloaded
                    2 "" 100000000000 (fun _ => true) lm')).
    exact E.
Defined.

Lemma decide_fast_path_proceeds_witness :
  decide cfg_example lm_example [] 1 "" 0 (fun _ => true) = Some (Proceed, lm_example).
Proof.
  apply EffortExtras.decide_fast_path_proceeds.
  - decide_by_eval.
  - decide_by_eval.
  - vm_compute. reflexivity.
  - vm_compute. reflexivity.
Defined.

Lemma new_manager_proceeds_witness :
  let lm := LoadManager_new (MovingStats:=SampleStats) [0xDEADBEEF%N]
              300000000000 1000000000 [] 0 in
  decide cfg_example lm [] 1 "" 0 (fun _ => true) = Some (Proceed, lm).
Proof.
  apply (EffortExtras.new_manager_proceeds cfg_example [0xDEADBEEF%N]
           300000000000 1000000000 ([] : SampleStats) 0 [] 1 "" 0 (fun _ => true)).
  - decide_by_eval.
  - vm_compute. reflexivity.
Defined.

Lemma record_and_reset_charges_top_witness :
  counter (record_and_reset 5 (inner (Stopwatch.new 0))) !! "other"%string
  = counter (inner (Stopwatch.new 0)) !! "other"%string.
Proof.
  pose proof (StopwatchExtras.record_and_reset_charges_top 5 (inner (Stopwatch.new 0))) as H.
  cbv zeta in H. destruct H as [_ [_ [_ H]]].
  apply (proj2 (H "unknown"%string eq_refl)). discriminate.
Defined.

Lemma start_end_section_roundtrip_witness :
  section_stack (inner (end_section (fst (start_section (Stopwatch.new 0) "query" 3))
                          "query" 8))
  = section_stack (inner (Stopwatch.new 0)).
Proof.
  exact (proj1 (StopwatchExtras.start_end_section_roundtrip (Stopwatch.new 0) "query" 3 8
                  eq_refl)).
Defined.

Lemma disabled_stopwatch_frozen_witness :
  let w := sw_step (init_world 0) SwDisable in
  inner (stopwatch (sw_run w [SwStart "a" 1; SwDrop 0 2; SwStart "b" 3]))
  = inner (stopwatch w).
Proof.
  intros w.
  exact (proj2 (StopwatchExtras.disabled_stopwatch_frozen w
                  [SwStart "a" 1; SwDrop 0 2; SwStart "b" 3] eq_refl)).
Defined.

Lemma lifo_stack_mirrors_guards_witness :
  let ops := [SwStart "a" 1; SwStart "b" 2; SwDrop 1 3; SwStart "c" 4] in
  section_stack (inner (stopwatch (sw_run (init_world 0) ops)))
  = "unknown"%string :: map fst (live (sw_run (init_world 0) ops)).
Proof.
  intros ops. apply StopwatchExtras.lifo_stack_mirrors_guards.
  vm_compute. reflexivity.
Defined.

End Examples.
